(** * pytorchvideo.models.net: composition wrappers

    A shallow embedding of [pytorchvideo/models/net.py] and the proofs of its
    structural contracts.  The three classes of the file are modelled:

    - [Net]: a list of blocks run one after another;
    - [DetectionBBoxNetwork]: a backbone, a detection head and a final
      [view] of the head's output to two dimensions;
    - [MultiPathWayWithFuse]: one block per pathway over a Python list of
      inputs, updated in place or copied, and an optional fusion.

    Python objects that are shared and mutated (the input list of
    [MultiPathWayWithFuse.forward]) live in a store and are handled by
    reference.  The parameters of the sub-modules are a component of the
    state: [init_net_weights] rewrites them, calling a module reads them. *)

From Stdlib Require Import ZArith String.
From stdpp Require Import base option list gmap.

Local Open Scope Z_scope.

(** ** Exceptions and results *)

(** The Python exceptions the file can raise itself, and [ModuleError] for
    whatever an opaque sub-module raises.  [InvalidReference] is the
    outcome of reading a list that is not in the store; no Python program
    holds such a reference. *)
Inductive exn : Type :=
| AssertionError (msg : string)
| TypeError
| IndexError
| AttributeError
| RuntimeError
| ModuleError (code : nat)
| InvalidReference.

Inductive result (A : Type) : Type :=
| Ok (a : A)
| Err (e : exn).
Arguments Ok {A} a.
Arguments Err {A} e.

#[global] Instance result_ret : MRet result := fun A a => Ok a.
#[global] Instance result_bind : MBind result := fun A B k r =>
  match r with
  | Ok a => k a
  | Err e => Err e
  end.

#[global] Instance result_fmap : FMap result := fun A B f r =>
  match r with
  | Ok a => Ok (f a)
  | Err e => Err e
  end.

Definition is_ok {A} (r : result A) : bool :=
  match r with Ok _ => true | Err _ => false end.

(** References to Python list objects. *)
Abbreviation loc := positive.

(** Events of interest in a run: the calls that leave the file. *)
Inductive event : Type :=
| EvInitNetWeights
| EvModuleCall.

#[global] Instance event_eq_dec : EqDecision event.
Proof. solve_decision. Defined.

Section Model.

(** The element type of tensors and the parameter store of the modules. *)
Context {Elem Weights : Type}.

(** ** Tensors

    A tensor is its shape and its elements listed in row-major order, the
    logical content of a contiguous [torch.Tensor]. *)
Record Tensor : Type := mkTensor { shape : list Z; data : list Elem }.

(** [t.numel()]: the product of the sizes. *)
Definition numel (t : Tensor) : Z := fold_right Z.mul 1 (shape t).

(** Row-major offset of a multi-index in a shape. *)
Definition flat_index (sh idx : list Z) : Z :=
  fold_left (fun acc di => acc * di.1 + di.2) (zip sh idx) 0.

(** A full multi-index of non-negative positions within the shape. *)
Fixpoint in_bounds (sh idx : list Z) : bool :=
  match sh, idx with
  | [], [] => true
  | d :: sh', i :: idx' => (0 <=? i) && (i <? d) && in_bounds sh' idx'
  | _, _ => false
  end.

(** [t[idx]] for a full multi-index; nothing out of bounds. *)
Definition item (t : Tensor) (idx : list Z) : option Elem :=
  if in_bounds (shape t) idx
  then data t !! Z.to_nat (flat_index (shape t) idx)
  else None.

(** ATen's [infer_size]: a first pass multiplies the given sizes and
    records the position of a [-1]; a second step checks the element
    count and fills the inferred size in.  Every failure surfaces in
    Python as a [RuntimeError]. *)
Fixpoint infer_size_scan (sh : list Z) (dim : nat) (newsize : Z)
    (infer_dim : option nat) : result (Z * option nat) :=
  match sh with
  | [] => Ok (newsize, infer_dim)
  | d :: rest =>
      if d =? -1 then
        match infer_dim with
        | Some _ => Err RuntimeError
        | None => infer_size_scan rest (S dim) newsize (Some dim)
        end
      else if 0 <=? d then infer_size_scan rest (S dim) (newsize * d) infer_dim
      else Err RuntimeError
  end.

Definition infer_size (sh : list Z) (n : Z) : result (list Z) :=
  ni ← infer_size_scan sh 0 1 None;
  let newsize := ni.1 in
  let infer_dim := ni.2 in
  if (n =? newsize)
     || (bool_decide (is_Some infer_dim) && (0 <? newsize)
         && (Z.rem n newsize =? 0))
  then
    match infer_dim with
    | Some i =>
        if newsize =? 0 then Err RuntimeError
        else Ok (<[i := Z.quot n newsize]> sh)
    | None => Ok sh
    end
  else Err RuntimeError.

(** [t.view(sh)] on a contiguous tensor: same elements, new shape. *)
Definition view (t : Tensor) (sh : list Z) : result Tensor :=
  sh' ← infer_size sh (numel t);
  mret {| shape := sh'; data := data t |}.

(** ** Values, modules and the state *)

Inductive value : Type :=
| VNone
| VTensor (t : Tensor)
| VList (l : loc).

(** A sub-module is opaque: given the current parameters it maps its
    argument to a result or raises. *)
Definition Stage : Type := Weights -> value -> result value.
Definition HeadStage : Type := Weights -> value -> value -> result value.
Definition Fusion : Type := Weights -> list value -> result value.

(** [nn.ModuleList]: a list whose entries are modules or [None]. *)
Abbreviation ModuleList := (list (option Stage)).

Record state : Type := mkState {
  weights : Weights;
  heap : gmap loc (list value);
  trace : list event
}.

Definition log (e : event) (s : state) : state :=
  {| weights := weights s; heap := heap s; trace := trace s ++ [e] |}.

Definition M (A : Type) : Type := state -> result A * state.

#[global] Instance M_ret : MRet M := fun A a s => (Ok a, s).
#[global] Instance M_bind : MBind M := fun A B k m s =>
  match m s with
  | (Ok a, s') => k a s'
  | (Err e, s') => (Err e, s')
  end.

Definition raise {A} (e : exn) : M A := fun s => (Err e, s).

(** [for idx in range(n): a = body(idx, a)] *)
Definition for_range {A} (n : nat) (body : nat -> A -> M A) (a : A) : M A :=
  fold_left (fun acc idx => acc ≫= body idx) (seq 0 n) (mret a).

(** [ml[idx]] on a module list, [idx >= 0]. *)
Definition getitem (ml : ModuleList) (idx : nat) : M (option Stage) :=
  match ml !! idx with
  | Some b => mret b
  | None => raise IndexError
  end.

(** [m(x)]: calling [None] is a [TypeError]. *)
Definition call_module (m : option Stage) (x : value) : M value :=
  match m with
  | None => raise TypeError
  | Some f => fun s => (f (weights s) x, log EvModuleCall s)
  end.

Definition call_head (m : option HeadStage) (x b : value) : M value :=
  match m with
  | None => raise TypeError
  | Some f => fun s => (f (weights s) x b, log EvModuleCall s)
  end.

(** *** Python lists in the store *)

Definition list_read (l : loc) : M (list value) := fun s =>
  match heap s !! l with
  | Some xs => (Ok xs, s)
  | None => (Err InvalidReference, s)
  end.

Definition list_write (l : loc) (xs : list value) : M unit := fun s =>
  (Ok tt, {| weights := weights s; heap := <[l := xs]> (heap s);
             trace := trace s |}).

(** A new list object. *)
Definition list_alloc (xs : list value) : M loc := fun s =>
  let l := fresh (dom (heap s)) in
  (Ok l, {| weights := weights s; heap := <[l := xs]> (heap s);
            trace := trace s |}).

(** [x[idx]], [idx >= 0] *)
Definition list_getitem (l : loc) (idx : nat) : M value :=
  xs ← list_read l;
  match xs !! idx with
  | Some v => mret v
  | None => raise IndexError
  end.

(** [x[idx] = v], [idx >= 0] *)
Definition list_setitem (l : loc) (idx : nat) (v : value) : M unit :=
  xs ← list_read l;
  if bool_decide (idx < length xs)%nat then list_write l (<[idx := v]> xs)
  else raise IndexError.

(** ** class Net *)

Record Net : Type := mkNet { blocks : ModuleList }.

(** [pytorchvideo.models.weight_init.init_net_weights] is not part of
    this file: it is a parameter, a rewriting of the module parameters
    that sees the network it is applied to. *)
Context (init_net_weights : Net -> Weights -> Weights).

Definition call_init_net_weights (self : Net) : M unit := fun s =>
  (Ok tt, log EvInitNetWeights
            {| weights := init_net_weights self (weights s);
               heap := heap s; trace := trace s |}).

(** [Net.__init__(self, *, blocks)] *)
Definition Net_init (blocks : option ModuleList) : M Net :=
  match blocks with
  | None => raise (AssertionError EmptyString)
  | Some bs =>
      let self := {| blocks := bs |} in
      call_init_net_weights self;;
      mret self
  end.

(** [Net.forward(self, x)] *)
Definition Net_forward (self : Net) (x : value) : M value :=
  for_range (length (blocks self))
    (fun idx x => b ← getitem (blocks self) idx; call_module b x) x.

(** Successive [forward] calls on the inputs [xs], whatever each returns. *)
Fixpoint Net_run_all (self : Net) (xs : list value) (s : state) : state :=
  match xs with
  | [] => s
  | x :: rest => Net_run_all self rest (Net_forward self x s).2
  end.

(** Folding an input through the stages by hand, first stage first. *)
Definition fold_stages (w : Weights) (S : list Stage) (x : value)
    : result value :=
  fold_left (fun acc f => acc ≫= f w) S (Ok x).

(** ** class DetectionBBoxNetwork *)

Record DetectionBBoxNetwork : Type := mkDetectionBBoxNetwork {
  model : option Stage;
  detection_head : option HeadStage
}.

(** [DetectionBBoxNetwork.__init__(self, model, detection_head)] *)
Definition DetectionBBoxNetwork_init (model : option Stage)
    (detection_head : option HeadStage) : M DetectionBBoxNetwork :=
  mret {| model := model; detection_head := detection_head |}.

(** [out.shape]: only tensors have one. *)
Definition get_shape (out : value) : M (list Z) :=
  match out with
  | VTensor t => mret (shape t)
  | _ => raise AttributeError
  end.

(** [sh[idx]] on a [torch.Size], [idx >= 0] *)
Definition size_getitem (sh : list Z) (idx : nat) : M Z :=
  match sh !! idx with
  | Some n => mret n
  | None => raise IndexError
  end.

(** [out.view(sh)] *)
Definition call_view (out : value) (sh : list Z) : M value :=
  match out with
  | VTensor t => fun s => (VTensor <$> view t sh, s)
  | _ => raise AttributeError
  end.

(** [DetectionBBoxNetwork.forward(self, x, bboxes)] *)
Definition DetectionBBoxNetwork_forward (self : DetectionBBoxNetwork)
    (x bboxes : value) : M value :=
  features ← call_module (model self) x;
  out ← call_head (detection_head self) features bboxes;
  sh ← get_shape out;
  n ← size_getitem sh 0;
  call_view out [n; -1].

(** ** class MultiPathWayWithFuse *)

Record MultiPathWayWithFuse : Type := mkMultiPathWayWithFuse {
  multipathway_blocks : ModuleList;
  multipathway_fusion : option Fusion;
  inplace : option bool
}.

(** Modelled from the spec: [pytorchvideo.layers.utils.set_attributes] is
    not part of this file; the constructor options are stored under their
    own names, fixed at construction.

    [MultiPathWayWithFuse.__init__(self, *, multipathway_blocks,
    multipathway_fusion, inplace=True)] *)
Definition MultiPathWayWithFuse_init (multipathway_blocks : ModuleList)
    (multipathway_fusion : option Fusion) (inplace : option bool)
    : M MultiPathWayWithFuse :=
  mret {| multipathway_blocks := multipathway_blocks;
          multipathway_fusion := multipathway_fusion;
          inplace := inplace |}.

(** Truth value of an [Optional[bool]]: [None] is false. *)
Definition truthy (b : option bool) : bool :=
  match b with
  | Some true => true
  | _ => false
  end.

Definition assert_message : string :=
  "input for MultiPathWayWithFuse needs to be a list of tensors".

(** [assert isinstance(x, list), ...] *)
Definition assert_isinstance_list (x : value) : M loc :=
  match x with
  | VList l => mret l
  | _ => raise (AssertionError assert_message)
  end.

(** [x_out = x] or [x_out = [None] * len(x)] *)
Definition output_buffer (self : MultiPathWayWithFuse) (x : loc) : M loc :=
  if truthy (inplace self) then mret x
  else xs ← list_read x; list_alloc (replicate (length xs) VNone).

(** The body of the loop over the pathways. *)
Definition pathway_step (self : MultiPathWayWithFuse) (x x_out : loc)
    (pathway_idx : nat) (_ : unit) : M unit :=
  b ← getitem (multipathway_blocks self) pathway_idx;
  match b with
  | Some f =>
      xi ← list_getitem x pathway_idx;
      y ← call_module (Some f) xi;
      list_setitem x_out pathway_idx y
  | None => mret tt
  end.

(** [self.multipathway_fusion(x_out)] *)
Definition apply_fusion (f : Fusion) (xs : list value) : M value := fun s =>
  (f (weights s) xs, log EvModuleCall s).

Definition call_fusion (f : Fusion) (x_out : loc) : M value :=
  xs ← list_read x_out;
  apply_fusion f xs.

(** [MultiPathWayWithFuse.forward(self, x)] *)
Definition MultiPathWayWithFuse_forward (self : MultiPathWayWithFuse)
    (x : value) : M value :=
  x ← assert_isinstance_list x;
  x_out ← output_buffer self x;
  for_range (length (multipathway_blocks self))
    (pathway_step self x x_out) tt;;
  match multipathway_fusion self with
  | Some f => call_fusion f x_out
  | None => mret (VList x_out)
  end.

(** What [x_out] holds before the loop: the inputs themselves, or as
    many [None]. *)
Definition base_slots (self : MultiPathWayWithFuse) (xs : list value)
    : list value :=
  if truthy (inplace self) then xs else replicate (length xs) VNone.

(** What the slot [i] of the output [out] must hold once the pathways
    have run over the inputs [xs]: the stage's output where the pathway has
    a stage, and otherwise what the output buffer [base] started with. *)
Definition slot_ok (bs : ModuleList) (w : Weights)
    (xs base out : list value) (i : nat) : Prop :=
  match (bs !! i : option (option Stage)) with
  | Some (Some f) =>
      exists xi y, xs !! i = Some xi /\ f w xi = Ok y /\ out !! i = Some y
  | _ => out !! i = base !! i
  end.

(** Every pathway stage finds its input and accepts it. *)
Fixpoint stages_accept (bs : ModuleList) (w : Weights) (xs : list value)
    : bool :=
  match bs with
  | [] => true
  | None :: bs' => stages_accept bs' w (tail xs)
  | Some f :: bs' =>
      match xs with
      | xi :: xs' => is_ok (f w xi) && stages_accept bs' w xs'
      | [] => false
      end
  end.

Definition pathways_accept (self : MultiPathWayWithFuse) (w : Weights)
    (xs : list value) : bool :=
  stages_accept (multipathway_blocks self) w xs.


(** Pathway [k] has a stage, and the stage fails with [e] on its input,
    or there is no input for it to be given. *)
Definition pathway_fails (self : MultiPathWayWithFuse) (w : Weights)
    (xs : list value) (k : nat) (e : exn) : Prop :=
  exists f : Stage,
    multipathway_blocks self !! k = Some (Some f) /\
    match xs !! k with
    | Some xi => f w xi = Err e
    | None => e = IndexError
    end.

(** ** Sample modules, used to run the definitions on concrete inputs *)

(** Reverses the elements of a tensor; rejects anything else. *)
Definition reverse_stage : Stage := fun _ x =>
  match x with
  | VTensor t => Ok (VTensor {| shape := shape t; data := reverse (data t) |})
  | _ => Err TypeError
  end.

(** Drops the first element of a rank-1 tensor. *)
Definition tail_stage : Stage := fun _ x =>
  match x with
  | VTensor t =>
      Ok (VTensor {| shape := [Z.of_nat (length (tail (data t)))];
                     data := tail (data t) |})
  | _ => Err TypeError
  end.

(** Ignores its input. *)
Definition const_stage (t : Tensor) : Stage := fun _ _ => Ok (VTensor t).
Definition const_head (t : Tensor) : HeadStage := fun _ _ _ => Ok (VTensor t).

(** A rank-1 tensor. *)
Definition vec (xs : list Elem) : value :=
  VTensor {| shape := [Z.of_nat (length xs)]; data := xs |}.

(** Concatenates the elements of the tensors of a list. *)
Fixpoint concat_data (xs : list value) : result (list Elem) :=
  match xs with
  | [] => Ok []
  | VTensor t :: rest => (fun d => data t ++ d) <$> concat_data rest
  | _ :: _ => Err TypeError
  end.

Definition concat_fusion : Fusion := fun _ xs => vec <$> concat_data xs.

(** Two pathways, the second without a stage, no fusion. *)
Definition one_absent (inplace : option bool) : MultiPathWayWithFuse :=
  {| multipathway_blocks := [Some reverse_stage; None];
     multipathway_fusion := None;
     inplace := inplace |}.

(** Two pathways with a stage each. *)
Definition two_pathways (fusion : option Fusion) : MultiPathWayWithFuse :=
  {| multipathway_blocks := [Some reverse_stage; Some tail_stage];
     multipathway_fusion := fusion;
     inplace := Some true |}.

(** One pathway. *)
Definition one_pathway : MultiPathWayWithFuse :=
  {| multipathway_blocks := [Some reverse_stage];
     multipathway_fusion := None;
     inplace := Some true |}.

(** Always raises. *)
Definition failing_stage (code : nat) : Stage := fun _ _ =>
  Err (ModuleError code).

(** Two pathways, the second with a stage that raises, no fusion. *)
Definition failing_second (inplace : option bool) : MultiPathWayWithFuse :=
  {| multipathway_blocks := [Some reverse_stage; Some (failing_stage 7)];
     multipathway_fusion := None;
     inplace := inplace |}.

(** A state with nothing in the store and nothing logged. *)
Definition initial_state (w : Weights) : state :=
  {| weights := w; heap := ∅; trace := [] |}.

(** A state whose store holds the list [xs] at reference [1]. *)
Definition state_with_list (w : Weights) (xs : list value) : state :=
  {| weights := w; heap := {[ 1%positive := xs ]}; trace := [] |}.

(** * Proofs *)

(** ** The monad and the loop *)

Lemma M_bind_eq {A B} (m : M A) (k : A -> M B) s :
  (m ≫= k) s
  = match m s with
    | (Ok a, s') => k a s'
    | (Err e, s') => (Err e, s')
    end.
Proof. reflexivity. Qed.

Lemma bind_ok {A B} (m : M A) (k : A -> M B) s a s' :
  m s = (Ok a, s') -> (m ≫= k) s = k a s'.
Proof. intros H. unfold mbind, M_bind. by rewrite H. Qed.

Lemma bind_err {A B} (m : M A) (k : A -> M B) s e s' :
  m s = (Err e, s') -> (m ≫= k) s = (Err e, s').
Proof. intros H. unfold mbind, M_bind. by rewrite H. Qed.

Lemma for_range_0 {A} (body : nat -> A -> M A) a s :
  for_range 0 body a s = (Ok a, s).
Proof. reflexivity. Qed.

Lemma for_range_S {A} n (body : nat -> A -> M A) a s :
  for_range (S n) body a s = (for_range n body a ≫= body n) s.
Proof. unfold for_range. by rewrite seq_S, fold_left_app. Qed.

(** Two bodies that agree below [n] give the same loop. *)
Lemma for_range_ext {A} n (body1 body2 : nat -> A -> M A) a s :
  (forall idx a' s', (idx < n)%nat -> body1 idx a' s' = body2 idx a' s') ->
  for_range n body1 a s = for_range n body2 a s.
Proof.
  induction n as [|n IH]; intros Hext; [done|].
  rewrite !for_range_S, !M_bind_eq.
  rewrite IH by (intros; apply Hext; lia).
  destruct (for_range n body2 a s) as [[a'|e] s']; [|done].
  apply Hext. lia.
Qed.

(** ** [Net] *)

(** One more block at the end is one more call after the loop. *)
Lemma Net_forward_snoc bs b x s :
  Net_forward {| blocks := bs ++ [b] |} x s
  = (Net_forward {| blocks := bs |} x ≫= call_module b) s.
Proof.
  unfold Net_forward. simpl.
  rewrite length_app, Nat.add_1_r, for_range_S, !M_bind_eq.
  rewrite (for_range_ext _ _
    (fun idx x => b0 ← getitem bs idx; call_module b0 x)).
  - destruct (for_range _ _ x s) as [[y|e] s']; [|done].
    rewrite M_bind_eq. unfold getitem.
    by rewrite (list_lookup_middle bs [] b (length bs) eq_refl).
  - intros idx a' s' Hlt. rewrite !M_bind_eq. unfold getitem.
    by rewrite lookup_app_l by done.
Qed.

(** Running the blocks reads the parameters and the store, and logs
    module calls only. *)
Lemma Net_forward_frame bs x s :
  let s' := (Net_forward {| blocks := bs |} x s).2 in
  weights s' = weights s /\ heap s' = heap s /\
  exists k, trace s' = trace s ++ replicate k EvModuleCall.
Proof.
  revert x s. induction bs as [|b bs IH] using rev_ind; intros x s; simpl.
  { repeat split; try done. exists 0%nat. simpl. by rewrite app_nil_r. }
  rewrite Net_forward_snoc, M_bind_eq.
  specialize (IH x s). simpl in IH.
  destruct (Net_forward {| blocks := bs |} x s) as [[y|e] s1]; simpl in *;
    [|done].
  destruct IH as (Hw & Hh & k & Ht).
  destruct b as [f|]; simpl; [|by eauto].
  repeat split; try done. exists (S k).
  rewrite Ht, <- app_assoc. f_equal.
  change [EvModuleCall] with (replicate 1 EvModuleCall).
  rewrite <- replicate_add. f_equal. lia.
Qed.

Lemma fold_stages_snoc w (S : list Stage) f x :
  fold_stages w (S ++ [f]) x = fold_stages w S x ≫= f w.
Proof. unfold fold_stages. by rewrite fold_left_app. Qed.

(** The loop over the indices computes the fold over the stages. *)
Lemma Net_forward_fold (S : list Stage) x s :
  (Net_forward {| blocks := Some <$> S |} x s).1 = fold_stages (weights s) S x.
Proof.
  revert x s. induction S as [|f S IH] using rev_ind; intros x s; [done|].
  rewrite fmap_app. simpl.
  rewrite Net_forward_snoc, fold_stages_snoc, M_bind_eq, <- IH.
  pose proof (Net_forward_frame (Some <$> S) x s) as (Hw & _). simpl in Hw.
  destruct (Net_forward {| blocks := Some <$> S |} x s) as [[y|e] s1];
    simpl in *; [|done].
  by rewrite Hw.
Qed.

Lemma Net_run_all_frame net xs s :
  exists k, trace (Net_run_all net xs s) = trace s ++ replicate k EvModuleCall.
Proof.
  revert s. induction xs as [|x xs IH]; intros s; simpl.
  { exists 0%nat. simpl. by rewrite app_nil_r. }
  destruct net as [bs].
  destruct (Net_forward_frame bs x s) as (_ & _ & k1 & Hk1). simpl in Hk1.
  destruct (IH (Net_forward {| blocks := bs |} x s).2) as [k2 Hk2].
  exists (k1 + k2)%nat.
  by rewrite Hk2, Hk1, <- app_assoc, replicate_add.
Qed.

(** C1: for a non-empty list of stages [S] and an input [x] that the stages
    accept, the forward pass of the network built from [S] returns the left
    fold of [x] through the stages in list order, and that result is the
    output of the last stage on what the stages before it produced. *)
Theorem Net_forward_is_left_fold (S : list Stage) (x y : value)
    (s s1 : state) (net : Net) :
  S ≠ [] ->
  Net_init (Some (Some <$> S)) s = (Ok net, s1) ->
  fold_stages (weights s1) S x = Ok y ->
  (Net_forward net x s1).1 = Ok y /\
  exists S' f z,
    S = S' ++ [f] /\
    (Net_forward {| blocks := Some <$> S' |} x s1).1 = Ok z /\
    f (weights s1) z = Ok y.
Proof.
  intros Hne Hinit Hfold.
  unfold Net_init in Hinit. rewrite M_bind_eq in Hinit. simpl in Hinit.
  injection Hinit as <- <-.
  split; [by rewrite Net_forward_fold|].
  destruct S as [|f S' _] using rev_ind; [done|].
  exists S', f. rewrite fold_stages_snoc in Hfold.
  destruct (fold_stages _ S' x) as [z|e] eqn:Hz; [|done].
  exists z. by rewrite Net_forward_fold.
Qed.

(** C5, as the code has it: the constructor of [Net] fails, with an
    assertion error and before the weights are touched, exactly when the
    block list is absent; every block list that is present, the empty one
    included, is accepted and stored as it is. *)
Theorem Net_init_checks_presence_only :
  (forall s, Net_init None s = (Err (AssertionError EmptyString), s)) /\
  (forall bs s, (Net_init (Some bs) s).1 = Ok {| blocks := bs |}).
Proof. by split. Qed.

(** C8: constructing a [Net] calls the weight initialisation once, on the
    network with its blocks stored, and nothing the subsequent forward
    passes do calls it again: the log after any number of them is the log
    before the construction, the one initialisation, then module calls
    only. *)
Theorem init_net_weights_called_once (bs : ModuleList) (s : state) :
  let r := Net_init (Some bs) s in
  r.1 = Ok {| blocks := bs |} /\
  weights r.2 = init_net_weights {| blocks := bs |} (weights s) /\
  trace r.2 = trace s ++ [EvInitNetWeights] /\
  forall xs, exists k,
    trace (Net_run_all {| blocks := bs |} xs r.2)
    = trace s ++ EvInitNetWeights :: replicate k EvModuleCall.
Proof.
  intros r. subst r. repeat split.
  intros xs.
  destruct (Net_run_all_frame {| blocks := bs |} xs
              (Net_init (Some bs) s).2) as [k Hk].
  exists k. rewrite Hk. simpl. by rewrite <- app_assoc.
Qed.

(** C9: the constructor of [Net] accepts a block list that is present and
    empty, and the forward pass of that network returns its input as it
    is, leaving the state alone. *)
Theorem Net_empty_is_identity :
  (forall s, (Net_init (Some []) s).1 = Ok {| blocks := [] |}) /\
  (forall x s, Net_forward {| blocks := [] |} x s = (Ok x, s)).
Proof. by split. Qed.

(** ** [DetectionBBoxNetwork] *)

(** Size inference for [view(n, -1)] on [p] elements. *)
Lemma infer_size_flatten n p :
  infer_size [n; -1] p
  = if n =? -1 then Err RuntimeError
    else if 0 <=? n then
      if (p =? n) || ((0 <? n) && (Z.rem p n =? 0)) then
        if n =? 0 then Err RuntimeError else Ok [n; Z.quot p n]
      else Err RuntimeError
    else Err RuntimeError.
Proof.
  unfold infer_size. simpl.
  destruct (n =? -1) eqn:E1; [done|].
  destruct (0 <=? n) eqn:E2; [|done].
  simpl. rewrite Z.mul_1_l. reflexivity.
Qed.

(** Flattening everything after a first axis of positive size. *)
Lemma view_flatten n rest (dat : list Elem) :
  1 <= n ->
  view {| shape := n :: rest; data := dat |} [n; -1]
  = Ok {| shape := [n; fold_right Z.mul 1 rest]; data := dat |}.
Proof.
  intros Hn. unfold view. rewrite infer_size_flatten.
  unfold numel. cbn [shape data fold_right].
  assert ((n =? -1) = false) as -> by lia.
  assert ((0 <=? n) = true) as -> by lia.
  assert ((0 <? n) = true) as -> by lia.
  assert ((n =? 0) = false) as -> by lia.
  rewrite Z.mul_comm, Z.rem_mul, Z.quot_mul by lia.
  simpl. by rewrite orb_true_r.
Qed.

(** A first axis of size zero leaves the [-1] undetermined. *)
Lemma view_flatten_empty rest (dat : list Elem) :
  view {| shape := 0 :: rest; data := dat |} [0; -1] = Err RuntimeError.
Proof. unfold view. by rewrite infer_size_flatten. Qed.

(** The forward pass, once backbone and head have answered. *)
Lemma DetectionBBoxNetwork_forward_eq (f : Stage) (h : HeadStage)
    x bboxes s features (raw : Tensor) n rest :
  f (weights s) x = Ok features ->
  h (weights s) features bboxes = Ok (VTensor raw) ->
  shape raw = n :: rest ->
  (DetectionBBoxNetwork_forward
     {| model := Some f; detection_head := Some h |} x bboxes s).1
  = VTensor <$> view raw [n; -1].
Proof.
  intros Hf Hh Hsh. unfold DetectionBBoxNetwork_forward.
  rewrite M_bind_eq. simpl. rewrite Hf.
  rewrite M_bind_eq. simpl. rewrite Hh.
  rewrite M_bind_eq. simpl.
  rewrite M_bind_eq. rewrite Hsh. reflexivity.
Qed.

(** C4, as the code has it: when the first axis of the head's output has
    size at least one, the forward pass returns the head's output with the
    same elements in the same row-major order and all axes after the first
    merged: shape [(N, a*b)] from [(N, a, b)], element [(n, i*b + j)] being
    element [(n, i, j)], and shape [(N, 1)] from [(N,)]. *)
Theorem DetectionBBoxNetwork_forward_flattens (f : Stage) (h : HeadStage)
    (x bboxes features : value) (raw : Tensor) (s : state) (N : Z) :
  f (weights s) x = Ok features ->
  h (weights s) features bboxes = Ok (VTensor raw) ->
  1 <= N ->
  let r := (DetectionBBoxNetwork_forward
              {| model := Some f; detection_head := Some h |}
              x bboxes s).1 in
  (forall rest, shape raw = N :: rest ->
     r = Ok (VTensor {| shape := [N; fold_right Z.mul 1 rest];
                        data := data raw |})) /\
  (forall a b, shape raw = [N; a; b] ->
     let out := {| shape := [N; a * b]; data := data raw |} in
     r = Ok (VTensor out) /\
     forall n i j, 0 <= n < N -> 0 <= i < a -> 0 <= j < b ->
       item out [n; i * b + j] = item raw [n; i; j] /\
       in_bounds (shape out) [n; i * b + j] = true) /\
  (shape raw = [N] ->
     r = Ok (VTensor {| shape := [N; 1]; data := data raw |})).
Proof.
  intros Hf Hh HN r.
  assert (Hgen : forall rest, shape raw = N :: rest ->
            r = Ok (VTensor {| shape := [N; fold_right Z.mul 1 rest];
                               data := data raw |})).
  { intros rest Hsh. subst r.
    rewrite (DetectionBBoxNetwork_forward_eq _ _ _ _ _ _ _ _ _ Hf Hh Hsh).
    destruct raw as [sh dat]. simpl in Hsh. subst sh.
    by rewrite view_flatten. }
  split; [exact Hgen|]. split.
  - intros a b Hsh out. split.
    { rewrite (Hgen _ Hsh). simpl. by rewrite Z.mul_1_r. }
    intros n i j Hn Hi Hj.
    assert (Hin : in_bounds (shape out) [n; i * b + j] = true).
    { simpl. rewrite andb_true_r, !andb_true_iff.
      rewrite !Z.leb_le, !Z.ltb_lt. repeat split; nia. }
    split; [|exact Hin].
    unfold item. rewrite Hin, Hsh. simpl.
    assert (Hraw : (0 <=? n) && (n <? N) && ((0 <=? i) && (i <? a)
                     && ((0 <=? j) && (j <? b) && true)) = true).
    { rewrite !andb_true_iff. repeat split; lia. }
    rewrite Hraw. unfold flat_index. simpl. do 2 f_equal. lia.
  - intros Hsh. by rewrite (Hgen _ Hsh).
Qed.

(** C6, as the code has it: the constructor of [DetectionBBoxNetwork]
    checks nothing and stores what it is given, backbone or head missing or
    not; a missing backbone makes the forward pass fail with a type error,
    and a missing head makes it fail with one once the backbone has
    answered. *)
Theorem DetectionBBoxNetwork_init_checks_nothing :
  (forall m h s,
     DetectionBBoxNetwork_init m h s
     = (Ok {| model := m; detection_head := h |}, s)) /\
  (forall h x bboxes s,
     (DetectionBBoxNetwork_forward {| model := None; detection_head := h |}
        x bboxes s).1 = Err TypeError) /\
  (forall (f : Stage) x bboxes s,
     (DetectionBBoxNetwork_forward
        {| model := Some f; detection_head := None |} x bboxes s).1
     = (f (weights s) x ≫= fun _ => Err TypeError)).
Proof.
  repeat split.
  intros f x bboxes s. unfold DetectionBBoxNetwork_forward.
  rewrite M_bind_eq. simpl. by destruct (f (weights s) x).
Qed.

(** ** [MultiPathWayWithFuse] *)

Lemma list_read_eq l (xs : list value) s :
  heap s !! l = Some xs -> list_read l s = (Ok xs, s).
Proof. intros H. unfold list_read. by rewrite H. Qed.

Lemma stages_accept_lookup (bs : ModuleList) w (xs : list value) i
    (f : Stage) :
  stages_accept bs w xs = true ->
  bs !! i = Some (Some f) ->
  exists xi, xs !! i = Some xi /\ is_ok (f w xi) = true.
Proof.
  revert xs i. induction bs as [|b bs IH]; intros xs i Hacc Hi; [done|].
  destruct i as [|i]; simpl in *.
  - injection Hi as ->. destruct xs as [|xi xs]; [done|].
    apply andb_true_iff in Hacc as [Hok _]. by exists xi.
  - destruct b as [g|].
    + destruct xs as [|xi xs]; [done|].
      apply andb_true_iff in Hacc as [_ Hacc]. exact (IH xs i Hacc Hi).
    + destruct (IH _ _ Hacc Hi) as (xi & Hxi & Hok).
      exists xi. by rewrite <- lookup_tail.
Qed.

(** The loop over the pathways, from a state where the input list [xs]
    is at [l] and the output buffer [base] at [xo]: after [k] rounds the
    buffer holds the outputs of the stages below [k] and is as it started
    from [k] on; nothing else in the store has changed. *)
Lemma pathway_loop self l xo (xs base : list value) s0 k :
  heap s0 !! l = Some xs ->
  heap s0 !! xo = Some base ->
  length base = length xs ->
  pathways_accept self (weights s0) xs = true ->
  (k <= length (multipathway_blocks self))%nat ->
  exists out sk,
    for_range k (pathway_step self l xo) tt s0 = (Ok tt, sk) /\
    weights sk = weights s0 /\
    heap sk = <[xo := out]> (heap s0) /\
    length out = length xs /\
    (forall i, (i < k)%nat ->
       slot_ok (multipathway_blocks self) (weights s0) xs base out i) /\
    (forall i, (k <= i)%nat -> out !! i = base !! i) /\
    exists c, trace sk = trace s0 ++ replicate c EvModuleCall.
Proof.
  intros Hl Hxo Hlen Hacc. induction k as [|k IH]; intros Hk.
  { exists base, s0. rewrite for_range_0. repeat split; try done.
    - by rewrite insert_id.
    - intros i Hi. lia.
    - exists 0%nat. simpl. by rewrite app_nil_r. }
  destruct IH as (out & sk & Hrun & Hw & Hheap & Hlen' & Hlo & Hhi & c & Htr);
    [lia|].
  rewrite for_range_S, (bind_ok _ _ _ _ _ Hrun).
  destruct (lookup_lt_is_Some_2 (multipathway_blocks self) k) as [b Hb];
    [lia|].
  unfold pathway_step at 1. rewrite M_bind_eq. unfold getitem. rewrite Hb.
  simpl. destruct b as [f|].
  - (* the pathway has a stage *)
    destruct (stages_accept_lookup _ _ _ _ _ Hacc Hb) as (xi & Hxi & Hok).
    destruct (f (weights s0) xi) as [y|e] eqn:Hy; [|done].
    assert (Hread : exists ys, heap sk !! l = Some ys /\ ys !! k = Some xi).
    { destruct (decide (l = xo)) as [->|Hne].
      - exists out. rewrite Hheap, lookup_insert_eq. split; [done|].
        rewrite Hhi by lia. congruence.
      - exists xs. by rewrite Hheap, lookup_insert_ne. }
    destruct Hread as (ys & Hys & Hysk).
    unfold list_getitem. rewrite !M_bind_eq, (list_read_eq _ _ _ Hys), Hysk.
    unfold mret at 1, M_ret. rewrite M_bind_eq. simpl. rewrite Hw, Hy.
    unfold list_setitem. rewrite M_bind_eq.
    assert (Hout : heap (log EvModuleCall sk) !! xo = Some out).
    { simpl. by rewrite Hheap, lookup_insert_eq. }
    rewrite (list_read_eq _ _ _ Hout).
    assert (Hklt : (k < length out)%nat).
    { rewrite Hlen'. by eapply lookup_lt_Some. }
    rewrite bool_decide_eq_true_2 by done.
    eexists (<[k := y]> out), _. split; [reflexivity|]. simpl.
    repeat split.
    + done.
    + by rewrite Hheap, insert_insert_eq.
    + by rewrite length_insert.
    + intros i Hi. destruct (decide (i = k)) as [->|Hik].
      * unfold slot_ok. rewrite Hb. exists xi, y.
        by rewrite list_lookup_insert_eq.
      * specialize (Hlo i ltac:(lia)). unfold slot_ok in *.
        rewrite list_lookup_insert_ne by done. exact Hlo.
    + intros i Hi. rewrite list_lookup_insert_ne by lia. apply Hhi. lia.
    + exists (S c). rewrite Htr, <- app_assoc. f_equal.
      change [EvModuleCall] with (replicate 1 (EvModuleCall)).
      rewrite <- replicate_add. f_equal. lia.
  - (* the pathway has none *)
    exists out, sk. repeat split; try done.
    + intros i Hi. destruct (decide (i = k)) as [->|Hik].
      * unfold slot_ok. rewrite Hb. apply Hhi. lia.
      * apply Hlo. lia.
    + intros i Hi. apply Hhi. lia.
    + by exists c.
Qed.

(** The forward pass on a list whose pathway stages all accept their
    input: where the output list is, what it holds, and what is returned
    with and without a fusion. *)
Lemma MultiPathWayWithFuse_forward_eq self l (xs : list value) s :
  heap s !! l = Some xs ->
  pathways_accept self (weights s) xs = true ->
  let xo := if truthy (inplace self) then l else fresh (dom (heap s)) in
  exists out s1,
    weights s1 = weights s /\
    heap s1 = <[xo := out]> (heap s) /\
    length out = length xs /\
    (forall i, slot_ok (multipathway_blocks self) (weights s) xs
                 (base_slots self xs) out i) /\
    (exists c, trace s1 = trace s ++ replicate c EvModuleCall) /\
    MultiPathWayWithFuse_forward self (VList l) s
    = match multipathway_fusion self with
      | Some f => (f (weights s) out, log EvModuleCall s1)
      | None => (Ok (VList xo), s1)
      end.
Proof.
  intros Hl Hacc xo.
  set (s0 := (output_buffer self l s).2).
  assert (Hbuf : output_buffer self l s = (Ok xo, s0) /\
                 weights s0 = weights s /\ trace s0 = trace s /\
                 heap s0 = <[xo := base_slots self xs]> (heap s) /\
                 heap s0 !! l = Some xs).
  { subst s0 xo. unfold output_buffer, base_slots.
    destruct (truthy (inplace self)).
    - repeat split; try done. simpl. by rewrite insert_id.
    - rewrite M_bind_eq, (list_read_eq _ _ _ Hl). simpl.
      repeat split. rewrite lookup_insert_ne; [done|].
      intros Heq. apply (is_fresh (dom (heap s))). rewrite Heq.
      apply elem_of_dom. by eexists. }
  destruct Hbuf as (Hbuf & Hw0 & Ht0 & Hh0 & Hl0).
  destruct (pathway_loop self l xo xs (base_slots self xs) s0
              (length (multipathway_blocks self)))
    as (out & s1 & Hrun & Hw & Hheap & Hlen & Hlo & Hhi & c & Htr).
  { done. }
  { by rewrite Hh0, lookup_insert_eq. }
  { unfold base_slots. destruct (truthy _); [done|].
    by rewrite length_replicate. }
  { by rewrite Hw0. }
  { done. }
  exists out, s1. repeat split.
  - congruence.
  - by rewrite Hheap, Hh0, insert_insert_eq.
  - done.
  - intros i. rewrite <- Hw0.
    destruct (decide (i < length (multipathway_blocks self))%nat) as [Hi|Hi].
    + by apply Hlo.
    + unfold slot_ok. rewrite lookup_ge_None_2 by lia. apply Hhi. lia.
  - exists c. by rewrite Htr, Ht0.
  - unfold MultiPathWayWithFuse_forward. simpl.
    rewrite M_bind_eq. unfold mret at 1, M_ret.
    rewrite M_bind_eq, Hbuf, M_bind_eq, Hrun.
    destruct (multipathway_fusion self) as [f|]; [|done].
    unfold call_fusion. rewrite M_bind_eq.
    rewrite (list_read_eq xo out s1) by (by rewrite Hheap, lookup_insert_eq).
    unfold apply_fusion. by rewrite Hw, Hw0.
Qed.

(** C2: without a fusion, on [N] inputs that the stages accept, the
    returned list holds at a pathway without a stage the input of that
    pathway when [inplace] is true and [None] when [inplace] is false, and
    at a pathway with a stage the stage's output on the input of that
    pathway, in both modes. *)
Theorem MultiPathWayWithFuse_absent_stage_slot self l (xs : list value) s :
  multipathway_fusion self = None ->
  heap s !! l = Some xs ->
  length xs = length (multipathway_blocks self) ->
  pathways_accept self (weights s) xs = true ->
  exists xo out s',
    MultiPathWayWithFuse_forward self (VList l) s = (Ok (VList xo), s') /\
    heap s' !! xo = Some out /\
    (forall i, multipathway_blocks self !! i = Some None ->
       exists xi, xs !! i = Some xi /\
         out !! i = Some (if truthy (inplace self) then xi else VNone)) /\
    (forall i (f : Stage), multipathway_blocks self !! i = Some (Some f) ->
       exists xi y,
         xs !! i = Some xi /\ f (weights s) xi = Ok y /\ out !! i = Some y).
Proof.
  intros Hfus Hl Hlen Hacc.
  destruct (MultiPathWayWithFuse_forward_eq self l xs s Hl Hacc)
    as (out & s1 & Hw & Hheap & Hlen' & Hslot & _ & Hrun).
  rewrite Hfus in Hrun.
  eexists _, out, s1. split; [exact Hrun|].
  split; [by rewrite Hheap, lookup_insert_eq|]. split.
  - intros i Hi. specialize (Hslot i). unfold slot_ok in Hslot.
    rewrite Hi in Hslot.
    destruct (lookup_lt_is_Some_2 xs i) as [xi Hxi].
    { rewrite Hlen. by eapply lookup_lt_Some. }
    exists xi. split; [done|]. rewrite Hslot. unfold base_slots.
    destruct (truthy (inplace self)); [done|].
    apply lookup_replicate_2. by eapply lookup_lt_Some.
  - intros i f Hi. specialize (Hslot i). unfold slot_ok in Hslot.
    by rewrite Hi in Hslot.
Qed.

(** C3: on [N] inputs that the stages accept, the forward pass with a
    fusion returns what the fusion returns on the list of the [N] output
    slots the pathways have filled, and without a fusion returns that list
    itself. *)
Theorem MultiPathWayWithFuse_fusion_result self l (xs : list value) s :
  heap s !! l = Some xs ->
  length xs = length (multipathway_blocks self) ->
  pathways_accept self (weights s) xs = true ->
  exists out,
    length out = length (multipathway_blocks self) /\
    (forall i, slot_ok (multipathway_blocks self) (weights s) xs
                 (base_slots self xs) out i) /\
    match multipathway_fusion self with
    | Some f =>
        (MultiPathWayWithFuse_forward self (VList l) s).1
        = f (weights s) out
    | None =>
        exists xo s',
          MultiPathWayWithFuse_forward self (VList l) s
          = (Ok (VList xo), s') /\
          heap s' !! xo = Some out
    end.
Proof.
  intros Hl Hlen Hacc.
  destruct (MultiPathWayWithFuse_forward_eq self l xs s Hl Hacc)
    as (out & s1 & Hw & Hheap & Hlen' & Hslot & _ & Hrun).
  exists out. split; [congruence|]. split; [done|].
  destruct (multipathway_fusion self) as [f|].
  - by rewrite Hrun.
  - eexists _, s1. split; [exact Hrun|]. by rewrite Hheap, lookup_insert_eq.
Qed.

(** C7, as the code has it: the forward pass fails with the assertion
    error, the state untouched, on every argument that is not a list; the
    length of a list is not compared with the number of pathways: on a list
    of any length in which every pathway with a stage finds an input that
    its stage accepts, the forward pass without a fusion completes. *)
Theorem MultiPathWayWithFuse_forward_checks_list_only self :
  (forall t s,
     MultiPathWayWithFuse_forward self (VTensor t) s
     = (Err (AssertionError assert_message), s)) /\
  (forall s,
     MultiPathWayWithFuse_forward self VNone s
     = (Err (AssertionError assert_message), s)) /\
  (forall l (xs : list value) s,
     multipathway_fusion self = None ->
     heap s !! l = Some xs ->
     pathways_accept self (weights s) xs = true ->
     is_ok (MultiPathWayWithFuse_forward self (VList l) s).1 = true).
Proof.
  repeat split.
  intros l xs s Hfus Hl Hacc.
  destruct (MultiPathWayWithFuse_forward_eq self l xs s Hl Hacc)
    as (out & s1 & _ & _ & _ & _ & _ & Hrun).
  rewrite Hfus in Hrun. by rewrite Hrun.
Qed.

(** C10: with [inplace] true and no fusion, on inputs that the stages
    accept, the forward pass returns the reference it was given, and the
    list at that reference has changed: a slot whose pathway has a stage
    holds the stage's output, every other slot holds what it held; no other
    list of the store has changed. *)
Theorem MultiPathWayWithFuse_inplace_aliases_input self l
    (xs : list value) s :
  truthy (inplace self) = true ->
  multipathway_fusion self = None ->
  heap s !! l = Some xs ->
  pathways_accept self (weights s) xs = true ->
  exists out s',
    MultiPathWayWithFuse_forward self (VList l) s = (Ok (VList l), s') /\
    heap s' = <[l := out]> (heap s) /\
    length out = length xs /\
    (forall i (f : Stage), multipathway_blocks self !! i = Some (Some f) ->
       exists xi y,
         xs !! i = Some xi /\ f (weights s) xi = Ok y /\ out !! i = Some y) /\
    (forall i, multipathway_blocks self !! i = Some None ->
       out !! i = xs !! i) /\
    (forall i, (length (multipathway_blocks self) <= i)%nat ->
       out !! i = xs !! i).
Proof.
  intros Hin Hfus Hl Hacc.
  destruct (MultiPathWayWithFuse_forward_eq self l xs s Hl Hacc)
    as (out & s1 & Hw & Hheap & Hlen' & Hslot & _ & Hrun).
  rewrite Hfus, Hin in Hrun. rewrite Hin in Hheap.
  unfold base_slots in Hslot. rewrite Hin in Hslot.
  exists out, s1. repeat split; try done.
  - intros i f Hi. specialize (Hslot i). unfold slot_ok in Hslot.
    by rewrite Hi in Hslot.
  - intros i Hi. specialize (Hslot i). unfold slot_ok in Hslot.
    by rewrite Hi in Hslot.
  - intros i Hi. specialize (Hslot i). unfold slot_ok in Hslot.
    by rewrite lookup_ge_None_2 in Hslot.
Qed.

(** ** More on [Net] *)

Lemma Net_forward_concat (bs1 bs2 : ModuleList) x s :
  Net_forward {| blocks := bs1 ++ bs2 |} x s
  = (Net_forward {| blocks := bs1 |} x ≫= Net_forward {| blocks := bs2 |}) s.
Proof.
  induction bs2 as [|b bs2 IH] using rev_ind.
  - rewrite app_nil_r, M_bind_eq.
    by destruct (Net_forward {| blocks := bs1 |} x s) as [[y|e] s1].
  - rewrite app_assoc, Net_forward_snoc, M_bind_eq, IH, !M_bind_eq.
    destruct (Net_forward {| blocks := bs1 |} x s) as [[y|e] s1]; [|done].
    by rewrite Net_forward_snoc, M_bind_eq.
Qed.

(** X1: the forward pass over two block lists put end to end is the
    forward pass over the first followed, on its output and from the state
    it leaves, by the forward pass over the second; a failure in the first
    is the failure of the whole. *)
Theorem Net_forward_app (bs1 bs2 : ModuleList) (x : value) (s : state) :
  Net_forward {| blocks := bs1 ++ bs2 |} x s
  = match Net_forward {| blocks := bs1 |} x s with
    | (Ok y, s1) => Net_forward {| blocks := bs2 |} y s1
    | (Err e, s1) => (Err e, s1)
    end.
Proof. by rewrite Net_forward_concat, M_bind_eq. Qed.

Lemma Net_forward_single (b : option Stage) x s :
  Net_forward {| blocks := [b] |} x s = call_module b x s.
Proof. by rewrite (Net_forward_snoc [] b), M_bind_eq. Qed.

(** A forward pass that returns has called every block, once each, and
    has changed neither the parameters nor the store. *)
Lemma Net_forward_ok_frame (bs : ModuleList) x y s s' :
  Net_forward {| blocks := bs |} x s = (Ok y, s') ->
  weights s' = weights s /\ heap s' = heap s /\
  trace s' = trace s ++ replicate (length bs) EvModuleCall.
Proof.
  revert y s'. induction bs as [|b bs IH] using rev_ind; intros y s' Hrun.
  { injection Hrun as <- <-. simpl. by rewrite app_nil_r. }
  rewrite Net_forward_snoc, M_bind_eq in Hrun.
  destruct (Net_forward {| blocks := bs |} x s) as [[z|e] s1]; [|done].
  destruct (IH z s1 eq_refl) as (Hw & Hh & Ht).
  destruct b as [f|]; simpl in Hrun; [|done].
  injection Hrun as _ <-. simpl. repeat split; try done.
  rewrite Ht, <- app_assoc, length_app, replicate_add. reflexivity.
Qed.

(** X2: when the blocks before position [k] answer and the block at [k]
    fails, or is [None], the forward pass fails with that very error; the
    blocks after [k] are not called: the log has one call per block before
    [k], and one more if there is a module at [k]. *)
Theorem Net_forward_stops_at_first_error (bs1 bs2 : ModuleList)
    (b : option Stage) (x z : value) (e : exn) (s s1 s2 : state) :
  Net_forward {| blocks := bs1 |} x s = (Ok z, s1) ->
  call_module b z s1 = (Err e, s2) ->
  Net_forward {| blocks := bs1 ++ b :: bs2 |} x s = (Err e, s2) /\
  weights s2 = weights s /\ heap s2 = heap s /\
  trace s2 = trace s ++ replicate (length bs1 + length (option_list b))
                          EvModuleCall.
Proof.
  intros H1 Hb. split.
  - rewrite Net_forward_concat, M_bind_eq, H1.
    change (b :: bs2) with ([b] ++ bs2).
    by rewrite Net_forward_concat, M_bind_eq, Net_forward_single, Hb.
  - destruct (Net_forward_ok_frame _ _ _ _ _ H1) as (Hw & Hh & Ht).
    destruct b as [f|]; simpl in Hb.
    + injection Hb as _ <-. simpl. repeat split; try done.
      by rewrite Ht, <- app_assoc, replicate_add.
    + injection Hb as _ <-. simpl. repeat split; try done.
      by rewrite Ht, Nat.add_0_r.
Qed.


(** X4: the forward pass of a network just built from the stages [S] is
    the fold of the input through [S] under the parameters as
    [init_net_weights] has rewritten them; the first error met in the fold
    is the error returned. *)
Theorem Net_constructed_runs_on_initialised_weights (S : list Stage)
    (x : value) (s : state) :
  let r := Net_init (Some (Some <$> S)) s in
  r.1 = Ok {| blocks := Some <$> S |} /\
  (Net_forward {| blocks := Some <$> S |} x r.2).1
  = fold_stages (init_net_weights {| blocks := Some <$> S |} (weights s))
      S x.
Proof. intros r. split; [done|]. by rewrite Net_forward_fold. Qed.

(** ** More on [DetectionBBoxNetwork] *)






(** ** More on [MultiPathWayWithFuse] *)

(** A loop that has failed stays failed. *)
Lemma for_range_err_mono {A} k n (body : nat -> A -> M A) a s e s' :
  for_range k body a s = (Err e, s') ->
  (k <= n)%nat ->
  for_range n body a s = (Err e, s').
Proof.
  intros Hk Hle. induction Hle as [|n Hle IH]; [done|].
  by rewrite for_range_S, M_bind_eq, IH.
Qed.

(** What [x_out] is and what the store holds once it is set up. *)
Lemma output_buffer_spec self l (xs : list value) s :
  heap s !! l = Some xs ->
  let xo := if truthy (inplace self) then l else fresh (dom (heap s)) in
  exists s0,
    output_buffer self l s = (Ok xo, s0) /\
    weights s0 = weights s /\ trace s0 = trace s /\
    heap s0 = <[xo := base_slots self xs]> (heap s) /\
    heap s0 !! l = Some xs /\
    (truthy (inplace self) = false -> heap s !! xo = None).
Proof.
  intros Hl xo. subst xo. unfold output_buffer, base_slots.
  destruct (truthy (inplace self)).
  - exists s. repeat split; try done. by rewrite insert_id.
  - rewrite M_bind_eq, (list_read_eq _ _ _ Hl). simpl.
    eexists. repeat split.
    + simpl. rewrite lookup_insert_ne; [done|].
      intros Heq. apply (is_fresh (dom (heap s))). rewrite Heq.
      apply elem_of_dom. by eexists.
    + intros _. apply not_elem_of_dom, is_fresh.
Qed.

(** The loop over the pathways as far as round [k], when the stages
    below [k] accept their inputs. *)
Lemma pathway_loop_prefix self l xo (xs base : list value) s0 k :
  heap s0 !! l = Some xs ->
  heap s0 !! xo = Some base ->
  length base = length xs ->
  stages_accept (take k (multipathway_blocks self)) (weights s0) xs = true ->
  (k <= length (multipathway_blocks self))%nat ->
  exists out sk,
    for_range k (pathway_step self l xo) tt s0 = (Ok tt, sk) /\
    weights sk = weights s0 /\
    heap sk = <[xo := out]> (heap s0) /\
    length out = length xs /\
    (forall i, (i < k)%nat ->
       slot_ok (multipathway_blocks self) (weights s0) xs base out i) /\
    (forall i, (k <= i)%nat -> out !! i = base !! i) /\
    exists c, trace sk = trace s0 ++ replicate c EvModuleCall.
Proof.
  intros Hl Hxo Hlen Hacc Hk.
  set (self' := {| multipathway_blocks := take k (multipathway_blocks self);
                   multipathway_fusion := multipathway_fusion self;
                   inplace := inplace self |}).
  destruct (pathway_loop self' l xo xs base s0 k Hl Hxo Hlen Hacc)
    as (out & sk & Hrun & Hw & Hheap & Hlen' & Hlo & Hhi & Htr).
  { simpl. by rewrite length_take_le. }
  exists out, sk. repeat split; try done.
  - rewrite <- Hrun. apply for_range_ext. intros idx a' s' Hidx.
    unfold pathway_step. rewrite !M_bind_eq. unfold getitem. simpl.
    by rewrite lookup_take_lt.
  - intros i Hi. specialize (Hlo i Hi). unfold slot_ok in *. simpl in Hlo.
    by rewrite lookup_take_lt in Hlo.
Qed.

(** The forward pass when the pathways below [k] go through and pathway
    [k] fails: the error is that of pathway [k], whatever the fusion; the
    output buffer has the outputs of the stages below [k] and is as it
    started from [k] on. *)
Lemma MultiPathWayWithFuse_forward_failure self l (xs : list value) s k e :
  heap s !! l = Some xs ->
  stages_accept (take k (multipathway_blocks self)) (weights s) xs = true ->
  pathway_fails self (weights s) xs k e ->
  let xo := if truthy (inplace self) then l else fresh (dom (heap s)) in
  exists out s',
    MultiPathWayWithFuse_forward self (VList l) s = (Err e, s') /\
    weights s' = weights s /\
    heap s' = <[xo := out]> (heap s) /\
    (truthy (inplace self) = false -> heap s !! xo = None) /\
    length out = length xs /\
    (forall i, (i < k)%nat ->
       slot_ok (multipathway_blocks self) (weights s) xs
         (base_slots self xs) out i) /\
    (forall i, (k <= i)%nat -> out !! i = base_slots self xs !! i).
Proof.
  intros Hl Hacc (f & Hb & Hfail) xo.
  destruct (output_buffer_spec self l xs s Hl)
    as (s0 & Hbuf & Hw0 & Ht0 & Hh0 & Hl0 & Hfresh).
  fold xo in Hbuf, Hh0, Hfresh.
  assert (Hk : (k < length (multipathway_blocks self))%nat)
    by (by eapply lookup_lt_Some).
  destruct (pathway_loop_prefix self l xo xs (base_slots self xs) s0 k)
    as (out & sk & Hrun & Hw & Hheap & Hlen & Hlo & Hhi & c & Htr).
  { done. }
  { by rewrite Hh0, lookup_insert_eq. }
  { unfold base_slots. destruct (truthy _); [done|].
    by rewrite length_replicate. }
  { by rewrite Hw0. }
  { lia. }
  assert (Hread : exists ys, heap sk !! l = Some ys /\ ys !! k = xs !! k).
  { destruct (decide (l = xo)) as [Heq|Hne].
    - exists out. rewrite Hheap, Heq, lookup_insert_eq. split; [done|].
      rewrite Hhi by lia.
      assert (Hbase : heap s0 !! l = Some (base_slots self xs))
        by (by rewrite Hh0, Heq, lookup_insert_eq).
      congruence.
    - exists xs. by rewrite Hheap, lookup_insert_ne. }
  destruct Hread as (ys & Hys & Hysk).
  assert (Hstep : exists sk',
            pathway_step self l xo k tt sk = (Err e, sk') /\
            weights sk' = weights sk /\ heap sk' = heap sk).
  { unfold pathway_step. rewrite M_bind_eq. unfold getitem. rewrite Hb.
    unfold mret at 1, M_ret. cbv beta iota.
    unfold list_getitem. rewrite !M_bind_eq, (list_read_eq _ _ _ Hys), Hysk.
    destruct (xs !! k) as [xi|].
    - unfold mret at 1, M_ret. rewrite M_bind_eq. simpl.
      exists (log EvModuleCall sk). rewrite Hw, Hw0, Hfail.
      repeat split; simpl; congruence.
    - subst e. by exists sk. }
  destruct Hstep as (sk' & Hstep & Hw' & Hh').
  exists out, sk'. repeat split; try done.
  - unfold MultiPathWayWithFuse_forward. simpl.
    rewrite M_bind_eq. unfold mret at 1, M_ret.
    rewrite M_bind_eq, Hbuf, M_bind_eq.
    rewrite (for_range_err_mono (S k) _ _ _ _ e sk'); [done| |lia].
    by rewrite for_range_S, M_bind_eq, Hrun.
  - congruence.
  - by rewrite Hh', Hheap, Hh0, insert_insert_eq.
  - intros i Hi. rewrite <- Hw0. by apply Hlo.
Qed.

(** X8: with [inplace] false (or [None]), on inputs that the stages
    accept, the forward pass changes no list that was in the store, the
    input list included; without a fusion, the list it returns is a new
    one. *)
Theorem MultiPathWayWithFuse_copy_keeps_input self l (xs : list value) s :
  truthy (inplace self) = false ->
  heap s !! l = Some xs ->
  pathways_accept self (weights s) xs = true ->
  let r := MultiPathWayWithFuse_forward self (VList l) s in
  heap r.2 !! l = Some xs /\
  (forall l' ys, heap s !! l' = Some ys -> heap r.2 !! l' = Some ys) /\
  (multipathway_fusion self = None ->
   exists xo, r.1 = Ok (VList xo) /\ heap s !! xo = None /\ xo <> l).
Proof.
  intros Hin Hl Hacc r. subst r.
  destruct (MultiPathWayWithFuse_forward_eq self l xs s Hl Hacc)
    as (out & s1 & Hw & Hheap & Hlen' & Hslot & _ & Hrun).
  rewrite Hin in Hheap, Hrun.
  assert (Hfresh : heap s !! fresh (dom (heap s)) = None)
    by apply not_elem_of_dom, is_fresh.
  assert (Hold : forall l' ys, heap s !! l' = Some ys ->
                   heap s1 !! l' = Some ys).
  { intros l' ys Hl'. rewrite Hheap, lookup_insert_ne; [done|].
    intros <-. congruence. }
  rewrite Hrun. destruct (multipathway_fusion self) as [f|]; simpl.
  - repeat split; [by apply Hold|exact Hold|done].
  - repeat split; [by apply Hold|exact Hold|].
    intros _. eexists. repeat split; [done|]. intros <-. congruence.
Qed.

(** X9: with [inplace] true, when the pathways below [k] go through and
    pathway [k] fails, on its stage or for want of an input, the forward
    pass fails with that error, fusion or not, and the caller's list is
    left half updated: the slots below [k] whose pathway has a stage hold
    that stage's output, every other slot holds what it held. *)
Theorem MultiPathWayWithFuse_inplace_failure_half_updates self l
    (xs : list value) s k e :
  truthy (inplace self) = true ->
  heap s !! l = Some xs ->
  stages_accept (take k (multipathway_blocks self)) (weights s) xs = true ->
  pathway_fails self (weights s) xs k e ->
  exists out s',
    MultiPathWayWithFuse_forward self (VList l) s = (Err e, s') /\
    heap s' = <[l := out]> (heap s) /\
    length out = length xs /\
    (forall i (g : Stage), (i < k)%nat ->
       multipathway_blocks self !! i = Some (Some g) ->
       exists xi y,
         xs !! i = Some xi /\ g (weights s) xi = Ok y /\ out !! i = Some y) /\
    (forall i, (i < k)%nat -> multipathway_blocks self !! i = Some None ->
       out !! i = xs !! i) /\
    (forall i, (k <= i)%nat -> out !! i = xs !! i).
Proof.
  intros Hin Hl Hacc Hfail.
  destruct (MultiPathWayWithFuse_forward_failure self l xs s k e Hl Hacc Hfail)
    as (out & s' & Hrun & _ & Hheap & _ & Hlen & Hlo & Hhi).
  unfold base_slots in Hlo, Hhi. rewrite Hin in Hheap, Hlo, Hhi.
  exists out, s'. repeat split; try done.
  - intros i g Hi Hb. specialize (Hlo i Hi). unfold slot_ok in Hlo.
    by rewrite Hb in Hlo.
  - intros i Hi Hb. specialize (Hlo i Hi). unfold slot_ok in Hlo.
    by rewrite Hb in Hlo.
Qed.

(** X10: with [inplace] false (or [None]), when the pathways below [k] go
    through and pathway [k] fails, the forward pass fails with that error
    and every list that was in the store, the input list included, is as
    it was. *)
Theorem MultiPathWayWithFuse_copy_failure_keeps_input self l
    (xs : list value) s k e :
  truthy (inplace self) = false ->
  heap s !! l = Some xs ->
  stages_accept (take k (multipathway_blocks self)) (weights s) xs = true ->
  pathway_fails self (weights s) xs k e ->
  exists s',
    MultiPathWayWithFuse_forward self (VList l) s = (Err e, s') /\
    forall l' ys, heap s !! l' = Some ys -> heap s' !! l' = Some ys.
Proof.
  intros Hin Hl Hacc Hfail.
  destruct (MultiPathWayWithFuse_forward_failure self l xs s k e Hl Hacc Hfail)
    as (out & s' & Hrun & _ & Hheap & Hfresh & _).
  rewrite Hin in Hheap, Hfresh. specialize (Hfresh eq_refl).
  exists s'. split; [done|].
  intros l' ys Hl'. rewrite Hheap, lookup_insert_ne; [done|].
  intros <-. congruence.
Qed.


(** X12: without a fusion, on inputs that the stages accept, the list
    returned has as many slots as the list given, not as many as there are
    pathways: a slot past the last pathway holds the input of that
    position when [inplace] is true and [None] when it is false. *)
Theorem MultiPathWayWithFuse_slots_past_the_pathways self l
    (xs : list value) s :
  multipathway_fusion self = None ->
  heap s !! l = Some xs ->
  pathways_accept self (weights s) xs = true ->
  exists xo out s',
    MultiPathWayWithFuse_forward self (VList l) s = (Ok (VList xo), s') /\
    heap s' !! xo = Some out /\
    length out = length xs /\
    forall i xi, (length (multipathway_blocks self) <= i)%nat ->
      xs !! i = Some xi ->
      out !! i = Some (if truthy (inplace self) then xi else VNone).
Proof.
  intros Hfus Hl Hacc.
  destruct (MultiPathWayWithFuse_forward_eq self l xs s Hl Hacc)
    as (out & s1 & Hw & Hheap & Hlen' & Hslot & _ & Hrun).
  rewrite Hfus in Hrun.
  eexists _, out, s1. split; [exact Hrun|].
  split; [by rewrite Hheap, lookup_insert_eq|]. split; [done|].
  intros i xi Hi Hxi. specialize (Hslot i). unfold slot_ok in Hslot.
  rewrite lookup_ge_None_2 in Hslot by done. rewrite Hslot.
  unfold base_slots. destruct (truthy (inplace self)); [done|].
  apply lookup_replicate_2. by eapply lookup_lt_Some.
Qed.






(** ** Where failures come from *)

(** X14: a forward pass of [Net] fails only where a block fails: the
    blocks before some position have answered, and the error and the final
    state are those of calling the block at that position ([None]
    included) on what they produced. *)
Theorem Net_forward_error_origin (bs : ModuleList) (x : value) (e : exn)
    (s s' : state) :
  Net_forward {| blocks := bs |} x s = (Err e, s') ->
  exists bs1 b bs2 z s1,
    bs = bs1 ++ b :: bs2 /\
    Net_forward {| blocks := bs1 |} x s = (Ok z, s1) /\
    call_module b z s1 = (Err e, s').
Proof.
  induction bs as [|b bs IH] using rev_ind; intros Hrun; [done|].
  rewrite Net_forward_snoc, M_bind_eq in Hrun.
  destruct (Net_forward {| blocks := bs |} x s) as [[z|e0] s1] eqn:Hbs.
  - exists bs, b, [], z, s1. by rewrite Hbs.
  - injection Hrun as -> ->.
    destruct (IH eq_refl) as (bs1 & b1 & bs2 & z & s0 & -> & H1 & Hb).
    exists bs1, b1, (bs2 ++ [b]), z, s0. by rewrite <- app_assoc.
Qed.

(** Stages that do not all accept their inputs have a first one that
    fails. *)
Lemma stages_accept_false (bs : ModuleList) w (xs : list value) :
  stages_accept bs w xs = false ->
  exists k (f : Stage) e,
    bs !! k = Some (Some f) /\
    stages_accept (take k bs) w xs = true /\
    match xs !! k with
    | Some xi => f w xi = Err e
    | None => e = IndexError
    end.
Proof.
  revert xs. induction bs as [|b bs IH]; intros xs Hacc; [done|].
  destruct b as [g|]; simpl in Hacc.
  - destruct xs as [|xi xs].
    { by exists 0%nat, g, IndexError. }
    destruct (g w xi) as [y|e] eqn:Hg.
    + destruct (IH xs Hacc) as (k & f & e & Hb & Hpre & Hk).
      exists (S k), f, e. simpl. by rewrite Hg.
    + by exists 0%nat, g, e.
  - destruct (IH (tail xs) Hacc) as (k & f & e & Hb & Hpre & Hk).
    exists (S k), f, e. simpl. by rewrite <- lookup_tail.
Qed.

(** X15: on a list, the forward pass of [MultiPathWayWithFuse] has no
    failure of its own: when it fails, either some pathway is the first to
    fail, on its stage or for want of an input, and the error is that
    one, or all pathways went through and the error is the fusion's on
    the list of output slots. *)
Theorem MultiPathWayWithFuse_forward_error_origin self l (xs : list value)
    (e : exn) s s' :
  heap s !! l = Some xs ->
  MultiPathWayWithFuse_forward self (VList l) s = (Err e, s') ->
  (exists k,
     stages_accept (take k (multipathway_blocks self)) (weights s) xs = true /\
     pathway_fails self (weights s) xs k e) \/
  (pathways_accept self (weights s) xs = true /\
   exists (f : Fusion) out,
     multipathway_fusion self = Some f /\
     f (weights s) out = Err e /\
     length out = length xs /\
     forall i, slot_ok (multipathway_blocks self) (weights s) xs
                 (base_slots self xs) out i).
Proof.
  intros Hl Hrun.
  destruct (pathways_accept self (weights s) xs) eqn:Hacc.
  - right. split; [done|].
    destruct (MultiPathWayWithFuse_forward_eq self l xs s Hl Hacc)
      as (out & s1 & _ & _ & Hlen & Hslot & _ & Hrun').
    rewrite Hrun in Hrun'.
    destruct (multipathway_fusion self) as [f|]; [|done].
    injection Hrun' as Hf _. by exists f, out.
  - left. destruct (stages_accept_false _ _ _ Hacc)
      as (k & f & e' & Hb & Hpre & Hk).
    assert (Hfail : pathway_fails self (weights s) xs k e')
      by (by exists f).
    destruct (MultiPathWayWithFuse_forward_failure self l xs s k e'
                Hl Hpre Hfail) as (out & s2 & Hrun' & _).
    rewrite Hrun in Hrun'. injection Hrun' as -> _. by exists k.
Qed.

End Model.

(** * The statements on concrete inputs *)

Lemma Net_forward_is_left_fold_witness :
  (Net_forward {| blocks := Some <$> [tail_stage; reverse_stage] |}
     (vec [1; 2; 3])
     (Net_init (Weights := unit) (fun _ w => w)
        (Some (Some <$> [tail_stage; reverse_stage])) (initial_state tt)).2).1
  = Ok (vec [3; 2]).
Proof.
  refine (proj1 (Net_forward_is_left_fold (fun _ w => w)
                   [tail_stage; reverse_stage] (vec [1; 2; 3]) _
                   (initial_state tt) _ _ _ eq_refl eq_refl)).
  discriminate.
Defined.

(** The order of the stages matters. *)
Example Net_forward_order_sensitive :
  (Net_forward (Weights := unit)
     {| blocks := [Some reverse_stage; Some tail_stage] |}
     (vec [1; 2; 3]) (initial_state tt)).1
  = Ok (vec [2; 1]).
Proof. reflexivity. Qed.

(** The empty block list is accepted. *)
Lemma Net_init_accepts_empty_list :
  (Net_init (Elem := Z) (Weights := unit) (fun _ w => w) (Some [])
     (initial_state tt)).1 = Ok {| blocks := [] |}
  /\ ~ exists e,
         (Net_init (Elem := Z) (Weights := unit) (fun _ w => w) (Some [])
            (initial_state tt)).1 = Err e.
Proof. split; [reflexivity|]. intros [e He]. discriminate He. Qed.

Lemma DetectionBBoxNetwork_forward_flattens_witness :
  (DetectionBBoxNetwork_forward (Weights := unit)
     {| model := Some reverse_stage;
        detection_head := Some (const_head (mkTensor [2; 2; 3] (seqZ 0 12))) |}
     (vec [1; 2]) VNone (initial_state tt)).1
  = Ok (VTensor (mkTensor [2; 6] (seqZ 0 12)))
  /\ item (mkTensor [2; 6] (seqZ 0 12)) [1; 1 * 3 + 2]
     = item (mkTensor [2; 2; 3] (seqZ 0 12)) [1; 1; 2]
  /\ item (mkTensor [2; 2; 3] (seqZ 0 12)) [1; 1; 2] = Some 11.
Proof.
  pose proof (DetectionBBoxNetwork_forward_flattens (Weights := unit)
                reverse_stage (const_head (mkTensor [2; 2; 3] (seqZ 0 12)))
                (vec [1; 2]) VNone _ (mkTensor [2; 2; 3] (seqZ 0 12))
                (initial_state tt) 2 eq_refl eq_refl ltac:(lia)) as H.
  destruct H as (_ & H & _).
  destruct (H 2 3 eq_refl) as [Hr Hitem].
  split; [exact Hr|].
  split; [|reflexivity].
  exact (proj1 (Hitem 1 1 2 ltac:(lia) ltac:(lia) ltac:(lia))).
Defined.

(** A rank-1 head output gets a second axis of size one. *)
Example DetectionBBoxNetwork_forward_rank_1 :
  (DetectionBBoxNetwork_forward (Weights := unit)
     {| model := Some reverse_stage;
        detection_head := Some (const_head (mkTensor [3] [7; 8; 9])) |}
     (vec [1; 2]) VNone (initial_state tt)).1
  = Ok (VTensor (mkTensor [3; 1] [7; 8; 9])).
Proof. reflexivity. Qed.

(** A head output with no axis has no first axis to keep. *)
Example DetectionBBoxNetwork_forward_rank_0 :
  (DetectionBBoxNetwork_forward (Weights := unit)
     {| model := Some reverse_stage;
        detection_head := Some (const_head (mkTensor [] [7])) |}
     (vec [1; 2]) VNone (initial_state tt)).1
  = Err IndexError.
Proof. reflexivity. Qed.

(** A head output with no rows cannot be flattened by [view(0, -1)]. *)
Lemma DetectionBBoxNetwork_forward_rejects_empty_batch :
  (DetectionBBoxNetwork_forward (Weights := unit)
     {| model := Some reverse_stage;
        detection_head := Some (const_head (mkTensor [0; 2; 3] [])) |}
     (vec [1; 2]) VNone (initial_state tt)).1
  = Err RuntimeError
  /\ (DetectionBBoxNetwork_forward (Weights := unit)
        {| model := Some reverse_stage;
           detection_head := Some (const_head (mkTensor [0] [])) |}
        (vec [1; 2]) VNone (initial_state tt)).1
     = Err RuntimeError
  /\ (DetectionBBoxNetwork_forward (Weights := unit)
        {| model := Some reverse_stage;
           detection_head := Some (const_head (mkTensor [0; 2; 3] [])) |}
        (vec [1; 2]) VNone (initial_state tt)).1
     <> Ok (VTensor (mkTensor [0; 2 * 3] (@nil Z))).
Proof. split; [reflexivity|]. split; [reflexivity|discriminate]. Qed.

(** Nothing is checked at construction. *)
Lemma DetectionBBoxNetwork_init_accepts_missing_parts :
  (DetectionBBoxNetwork_init (Elem := Z) (Weights := unit)
     None None (initial_state tt)).1
  = Ok {| model := None; detection_head := None |}
  /\ ~ exists e,
         (DetectionBBoxNetwork_init (Elem := Z) (Weights := unit)
            None None (initial_state tt)).1 = Err e.
Proof. split; [reflexivity|]. intros [e He]. discriminate He. Qed.

Lemma MultiPathWayWithFuse_absent_stage_slot_witness :
  exists xo out s',
    MultiPathWayWithFuse_forward (one_absent (Some false)) (VList 1)
      (state_with_list (Weights := unit) tt [vec [1; 2]; vec [3; 4]])
    = (Ok (VList xo), s') /\
    heap s' !! xo = Some out /\
    out !! 0%nat = Some (vec [2; 1]) /\
    out !! 1%nat = Some VNone.
Proof.
  destruct (MultiPathWayWithFuse_absent_stage_slot
              (one_absent (Some false)) 1%positive
              [vec [1; 2]; vec [3; 4]]
              (state_with_list (Weights := unit) tt [vec [1; 2]; vec [3; 4]])
              eq_refl eq_refl eq_refl eq_refl)
    as (xo & out & s' & Hrun & Hheap & Habs & Hpres).
  exists xo, out, s'. split; [exact Hrun|]. split; [exact Hheap|]. split.
  - destruct (Hpres 0%nat reverse_stage eq_refl) as (xi & y & Hxi & Hy & Hout).
    simpl in Hxi. injection Hxi as <-.
    simpl in Hy. injection Hy as <-. exact Hout.
  - destruct (Habs 1%nat eq_refl) as (xi & _ & Hout). exact Hout.
Defined.

(** The two modes on the same inputs: the list returned when [inplace]
    is true is the input list, with the second input still in its slot;
    when it is false it is a new list, with [None] in the second slot. *)
Example MultiPathWayWithFuse_forward_inplace :
  MultiPathWayWithFuse_forward (one_absent (Some true)) (VList 1)
    (state_with_list (Weights := unit) tt [vec [1; 2]; vec [3; 4]])
  = (Ok (VList 1),
     {| weights := tt;
        heap := {[ 1%positive := [vec [2; 1]; vec [3; 4]] ]};
        trace := [EvModuleCall] |}).
Proof. reflexivity. Qed.

Example MultiPathWayWithFuse_forward_copy :
  MultiPathWayWithFuse_forward (one_absent (Some false)) (VList 1)
    (state_with_list (Weights := unit) tt [vec [1; 2]; vec [3; 4]])
  = (Ok (VList 2),
     {| weights := tt;
        heap := <[ 2%positive := [vec [2; 1]; VNone] ]>
                  {[ 1%positive := [vec [1; 2]; vec [3; 4]] ]};
        trace := [EvModuleCall] |}).
Proof. reflexivity. Qed.

Lemma MultiPathWayWithFuse_fusion_result_witness :
  exists out,
    length out = 2%nat /\
    (forall i,
       slot_ok [Some reverse_stage; Some tail_stage] tt
         [vec [1; 2]; vec [3; 4]] [vec [1; 2]; vec [3; 4]] out i) /\
    (MultiPathWayWithFuse_forward (two_pathways (Some concat_fusion))
       (VList 1)
       (state_with_list (Weights := unit) tt [vec [1; 2]; vec [3; 4]])).1
    = concat_fusion tt out.
Proof.
  exact (MultiPathWayWithFuse_fusion_result
           (two_pathways (Some concat_fusion)) 1%positive
           [vec [1; 2]; vec [3; 4]]
           (state_with_list (Weights := unit) tt [vec [1; 2]; vec [3; 4]])
           eq_refl eq_refl eq_refl).
Defined.

Example MultiPathWayWithFuse_forward_fused :
  (MultiPathWayWithFuse_forward (two_pathways (Some concat_fusion))
     (VList 1)
     (state_with_list (Weights := unit) tt [vec [1; 2]; vec [3; 4]])).1
  = Ok (vec [2; 1; 4]).
Proof. reflexivity. Qed.

Lemma MultiPathWayWithFuse_forward_checks_list_only_witness :
  MultiPathWayWithFuse_forward one_pathway (vec [1; 2])
    (initial_state (Weights := unit) tt)
  = (Err (AssertionError assert_message), initial_state tt)
  /\ is_ok (MultiPathWayWithFuse_forward one_pathway (VList 1)
              (state_with_list (Weights := unit) tt
                 [vec [1; 2]; vec [3; 4]])).1 = true.
Proof.
  destruct (MultiPathWayWithFuse_forward_checks_list_only
              (Elem := Z) (Weights := unit) one_pathway)
    as (Htensor & _ & Hlist).
  split.
  - exact (Htensor _ (initial_state tt)).
  - exact (Hlist 1%positive [vec [1; 2]; vec [3; 4]]
             (state_with_list tt [vec [1; 2]; vec [3; 4]])
             eq_refl eq_refl eq_refl).
Defined.

(** A list longer than the number of pathways is accepted, its extra slot
    left alone; on a list shorter than the number of pathways the stage
    of the first pathway without an input meets an index error, after the
    earlier slots have been overwritten. *)
Lemma MultiPathWayWithFuse_forward_ignores_length :
  length [vec [1; 2]; vec [3; 4]]
  <> length (multipathway_blocks (Elem := Z) (Weights := unit) one_pathway)
  /\ MultiPathWayWithFuse_forward one_pathway (VList 1)
       (state_with_list (Weights := unit) tt [vec [1; 2]; vec [3; 4]])
     = (Ok (VList 1),
        {| weights := tt;
           heap := {[ 1%positive := [vec [2; 1]; vec [3; 4]] ]};
           trace := [EvModuleCall] |})
  /\ length [vec [1; 2]]
     <> length (multipathway_blocks (Elem := Z) (Weights := unit)
                  (two_pathways None))
  /\ MultiPathWayWithFuse_forward (two_pathways None) (VList 1)
       (state_with_list (Weights := unit) tt [vec [1; 2]])
     = (Err IndexError,
        {| weights := tt;
           heap := {[ 1%positive := [vec [2; 1]] ]};
           trace := [EvModuleCall] |}).
Proof.
  split; [discriminate|]. split; [reflexivity|].
  split; [discriminate|reflexivity].
Qed.

Lemma MultiPathWayWithFuse_inplace_aliases_input_witness :
  exists out s',
    MultiPathWayWithFuse_forward (one_absent (Some true)) (VList 1)
      (state_with_list (Weights := unit) tt [vec [1; 2]; vec [3; 4]])
    = (Ok (VList 1), s') /\
    heap s' = <[ 1%positive := out ]>
                {[ 1%positive := [vec [1; 2]; vec [3; 4]] ]} /\
    out !! 0%nat = Some (vec [2; 1]) /\
    out !! 1%nat = Some (vec [3; 4]).
Proof.
  destruct (MultiPathWayWithFuse_inplace_aliases_input
              (one_absent (Some true)) 1%positive
              [vec [1; 2]; vec [3; 4]]
              (state_with_list (Weights := unit) tt [vec [1; 2]; vec [3; 4]])
              eq_refl eq_refl eq_refl eq_refl)
    as (out & s' & Hrun & Hheap & _ & Hpres & Habs & _).
  exists out, s'. split; [exact Hrun|]. split; [exact Hheap|]. split.
  - destruct (Hpres 0%nat reverse_stage eq_refl) as (xi & y & Hxi & Hy & Hout).
    simpl in Hxi. injection Hxi as <-.
    simpl in Hy. injection Hy as <-. exact Hout.
  - exact (Habs 1%nat eq_refl).
Defined.

(** ** The further statements on concrete inputs *)

Lemma Net_forward_stops_at_first_error_witness :
  Net_forward (Weights := unit)
    {| blocks := [Some tail_stage] ++ Some (failing_stage 7)
                   :: [Some reverse_stage] |}
    (vec [1; 2; 3]) (initial_state tt)
  = (Err (ModuleError 7),
     {| weights := tt; heap := ∅;
        trace := [EvModuleCall; EvModuleCall] |}).
Proof.
  exact (proj1 (Net_forward_stops_at_first_error (Weights := unit)
                  [Some tail_stage] [Some reverse_stage]
                  (Some (failing_stage 7)) (vec [1; 2; 3]) _ _
                  (initial_state tt) _ _ eq_refl eq_refl)).
Defined.




Lemma MultiPathWayWithFuse_copy_keeps_input_witness :
  heap (MultiPathWayWithFuse_forward (one_absent (Some false)) (VList 1)
          (state_with_list (Weights := unit) tt
             [vec [1; 2]; vec [3; 4]])).2 !! 1%positive
  = Some [vec [1; 2]; vec [3; 4]].
Proof.
  exact (proj1 (MultiPathWayWithFuse_copy_keeps_input
                  (one_absent (Some false)) 1%positive
                  [vec [1; 2]; vec [3; 4]]
                  (state_with_list (Weights := unit) tt
                     [vec [1; 2]; vec [3; 4]])
                  eq_refl eq_refl eq_refl)).
Defined.

Lemma MultiPathWayWithFuse_inplace_failure_half_updates_witness :
  exists out s',
    MultiPathWayWithFuse_forward (failing_second (Some true)) (VList 1)
      (state_with_list (Weights := unit) tt [vec [1; 2]; vec [3; 4]])
    = (Err (ModuleError 7), s') /\
    heap s' = <[ 1%positive := out ]>
                {[ 1%positive := [vec [1; 2]; vec [3; 4]] ]} /\
    out !! 0%nat = Some (vec [2; 1]) /\
    out !! 1%nat = Some (vec [3; 4]).
Proof.
  destruct (MultiPathWayWithFuse_inplace_failure_half_updates
              (failing_second (Some true)) 1%positive
              [vec [1; 2]; vec [3; 4]]
              (state_with_list (Weights := unit) tt [vec [1; 2]; vec [3; 4]])
              1%nat (ModuleError 7) eq_refl eq_refl eq_refl
              (ex_intro _ (failing_stage 7) (conj eq_refl eq_refl)))
    as (out & s' & Hrun & Hheap & _ & Hpres & _ & Hhi).
  exists out, s'. split; [exact Hrun|]. split; [exact Hheap|]. split.
  - destruct (Hpres 0%nat reverse_stage ltac:(lia) eq_refl)
      as (xi & y & Hxi & Hy & Hout).
    simpl in Hxi. injection Hxi as <-.
    simpl in Hy. injection Hy as <-. exact Hout.
  - exact (Hhi 1%nat ltac:(lia)).
Defined.

Lemma MultiPathWayWithFuse_copy_failure_keeps_input_witness :
  exists s',
    MultiPathWayWithFuse_forward (failing_second (Some false)) (VList 1)
      (state_with_list (Weights := unit) tt [vec [1; 2]; vec [3; 4]])
    = (Err (ModuleError 7), s') /\
    heap s' !! 1%positive = Some [vec [1; 2]; vec [3; 4]].
Proof.
  destruct (MultiPathWayWithFuse_copy_failure_keeps_input
              (failing_second (Some false)) 1%positive
              [vec [1; 2]; vec [3; 4]]
              (state_with_list (Weights := unit) tt [vec [1; 2]; vec [3; 4]])
              1%nat (ModuleError 7) eq_refl eq_refl eq_refl
              (ex_intro _ (failing_stage 7) (conj eq_refl eq_refl)))
    as (s' & Hrun & Hold).
  exists s'. split; [exact Hrun|]. exact (Hold 1%positive _ eq_refl).
Defined.


Lemma MultiPathWayWithFuse_slots_past_the_pathways_witness :
  exists xo out s',
    MultiPathWayWithFuse_forward one_pathway (VList 1)
      (state_with_list (Weights := unit) tt [vec [1; 2]; vec [3; 4]])
    = (Ok (VList xo), s') /\
    heap s' !! xo = Some out /\
    length out = 2%nat /\
    out !! 1%nat = Some (vec [3; 4]).
Proof.
  destruct (MultiPathWayWithFuse_slots_past_the_pathways
              one_pathway 1%positive [vec [1; 2]; vec [3; 4]]
              (state_with_list (Weights := unit) tt [vec [1; 2]; vec [3; 4]])
              eq_refl eq_refl eq_refl)
    as (xo & out & s' & Hrun & Hheap & Hlen & Hpast).
  exists xo, out, s'. split; [exact Hrun|]. split; [exact Hheap|].
  split; [exact Hlen|].
  exact (Hpast 1%nat (vec [3; 4]) ltac:(simpl; lia) eq_refl).
Defined.


Lemma Net_forward_error_origin_witness :
  exists bs1 b bs2 z s1,
    [Some tail_stage; Some (failing_stage 7); Some reverse_stage]
    = bs1 ++ b :: bs2 /\
    Net_forward (Weights := unit) {| blocks := bs1 |} (vec [1; 2; 3])
      (initial_state tt) = (Ok z, s1) /\
    call_module b z s1
    = (Err (ModuleError 7),
       {| weights := tt; heap := ∅;
          trace := [EvModuleCall; EvModuleCall] |}).
Proof.
  exact (Net_forward_error_origin (Weights := unit)
           [Some tail_stage; Some (failing_stage 7); Some reverse_stage]
           (vec [1; 2; 3]) _ (initial_state tt) _ eq_refl).
Defined.

Lemma MultiPathWayWithFuse_forward_error_origin_witness :
  exists k,
    stages_accept (take k (multipathway_blocks (failing_second (Some true))))
      tt [vec [1; 2]; vec [3; 4]] = true /\
    pathway_fails (failing_second (Some true)) tt
      [vec [1; 2]; vec [3; 4]] k (ModuleError 7).
Proof.
  destruct (MultiPathWayWithFuse_forward_error_origin
              (failing_second (Some true)) 1%positive
              [vec [1; 2]; vec [3; 4]] (ModuleError 7)
              (state_with_list (Weights := unit) tt [vec [1; 2]; vec [3; 4]])
              _ eq_refl eq_refl) as [Hk|[Hacc _]].
  - exact Hk.
  - discriminate Hacc.
Defined.
